(** * moroz: the [santa] package and the sync-server core around it

    The first part embeds [santa/santa.go]: the three integer enums
    [RuleType], [Policy] and [ClientMode] with their text codecs, and the
    structs of the wire protocol.  The second part models the components the
    specification describes around that package (precedence engine, batch
    pager, session manager). *)

From Stdlib Require Import ZArith List String Ascii Bool Lia.
Import ListNotations.

#[local] Set Warnings "-register-all".

Local Open Scope Z_scope.
Local Open Scope string_scope.

(** ** Go values used by the package *)

(** A [[]byte] value: [None] is the nil slice. *)
Definition bytes := option string.

(** The conversion [string(text)]; a nil slice converts to the empty string. *)
Definition string_of_bytes (text : bytes) : string :=
  match text with
  | Some s => s
  | None => ""
  end.

(** The conversion [[]byte("...")] of a string constant. *)
Definition bytes_of_string (s : string) : bytes := Some s.

(** [github.com/pkg/errors]: an error built by [errors.Errorf] is kept as its
    format string and its single operand; a nil error is [None]. *)
Module errors.

Inductive operand : Type :=
| OpString (s : string)   (* formatted with %q *)
| OpInt (n : Z).          (* formatted with %d *)

Record error : Type := Errorf { format : string; arg : operand }.

End errors.

Definition error : Type := option errors.error.
Definition nil_error : error := None.

(** ** type RuleType int *)
Module RuleType.

Definition t := Z.

(* const ( Binary RuleType = iota; Certificate; TeamID; SigningID ) *)
Definition Binary : t := 0.
Definition Certificate : t := 1.
Definition TeamID : t := 2.
Definition SigningID : t := 3.

(** [func (r *RuleType) UnmarshalText(text []byte) error]: the receiver is
    passed in and its value after the call is returned with the error. *)
Definition UnmarshalText (r : t) (text : bytes) : t * error :=
  let t := string_of_bytes text in
  if String.eqb t "BINARY" then (Binary, nil_error)
  else if String.eqb t "CERTIFICATE" then (Certificate, nil_error)
  else if String.eqb t "TEAMID" then (TeamID, nil_error)
  else if String.eqb t "SIGNINGID" then (SigningID, nil_error)
  else (r, Some (errors.Errorf "unknown rule_type value %q" (errors.OpString t))).

(** [func (r RuleType) MarshalText() ([]byte, error)] *)
Definition MarshalText (r : t) : bytes * error :=
  if Z.eqb r Binary then (bytes_of_string "BINARY", nil_error)
  else if Z.eqb r Certificate then (bytes_of_string "CERTIFICATE", nil_error)
  else if Z.eqb r TeamID then (bytes_of_string "TEAMID", nil_error)
  else if Z.eqb r SigningID then (bytes_of_string "SIGNINGID", nil_error)
  else (None, Some (errors.Errorf "unknown rule_type %d" (errors.OpInt r))).

Definition values : list t := [Binary; Certificate; TeamID; SigningID].
Definition wire : list string := ["BINARY"; "CERTIFICATE"; "TEAMID"; "SIGNINGID"].

End RuleType.

(** ** type Policy int *)
Module Policy.

Definition t := Z.

(* const ( Blocklist Policy = iota; Allowlist; AllowlistCompiler; Remove ) *)
Definition Blocklist : t := 0.
Definition Allowlist : t := 1.
Definition AllowlistCompiler : t := 2.
Definition Remove : t := 3.

(** [func (p *Policy) UnmarshalText(text []byte) error] *)
Definition UnmarshalText (p : t) (text : bytes) : t * error :=
  let t := string_of_bytes text in
  if String.eqb t "BLOCKLIST" then (Blocklist, nil_error)
  else if String.eqb t "ALLOWLIST" then (Allowlist, nil_error)
  else if String.eqb t "ALLOWLIST_COMPILER" then (AllowlistCompiler, nil_error)
  else if String.eqb t "REMOVE" then (Remove, nil_error)
  else (p, Some (errors.Errorf "unknown policy value %q" (errors.OpString t))).

(** [func (p Policy) MarshalText() ([]byte, error)] *)
Definition MarshalText (p : t) : bytes * error :=
  if Z.eqb p Blocklist then (bytes_of_string "BLOCKLIST", nil_error)
  else if Z.eqb p Allowlist then (bytes_of_string "ALLOWLIST", nil_error)
  else if Z.eqb p AllowlistCompiler then (bytes_of_string "ALLOWLIST_COMPILER", nil_error)
  else if Z.eqb p Remove then (bytes_of_string "REMOVE", nil_error)
  else (None, Some (errors.Errorf "unknown policy %d" (errors.OpInt p))).

Definition values : list t := [Blocklist; Allowlist; AllowlistCompiler; Remove].
Definition wire : list string := ["BLOCKLIST"; "ALLOWLIST"; "ALLOWLIST_COMPILER"; "REMOVE"].

End Policy.

(** ** type ClientMode int *)
Module ClientMode.

Definition t := Z.

(* const ( Monitor ClientMode = iota; Lockdown ) *)
Definition Monitor : t := 0.
Definition Lockdown : t := 1.

(** [func (c *ClientMode) UnmarshalText(text []byte) error] *)
Definition UnmarshalText (c : t) (text : bytes) : t * error :=
  let mode := string_of_bytes text in
  if String.eqb mode "MONITOR" then (Monitor, nil_error)
  else if String.eqb mode "LOCKDOWN" then (Lockdown, nil_error)
  else (c, Some (errors.Errorf "unknown client_mode value %q" (errors.OpString mode))).

(** [func (c ClientMode) MarshalText() ([]byte, error)] *)
Definition MarshalText (c : t) : bytes * error :=
  if Z.eqb c Monitor then (bytes_of_string "MONITOR", nil_error)
  else if Z.eqb c Lockdown then (bytes_of_string "LOCKDOWN", nil_error)
  else (None, Some (errors.Errorf "unknown client_mode %d" (errors.OpInt c))).

Definition values : list t := [Monitor; Lockdown].
Definition wire : list string := ["MONITOR"; "LOCKDOWN"].

End ClientMode.

(** ** Properties of a text codec, shared by the three enums *)
Section TextCodec.

Variable marshal : Z -> bytes * error.
Variable unmarshal : Z -> bytes -> Z * error.
Variable values : list Z.
Variable wire : list string.

(** Encoding a declared constant succeeds and decoding the bytes into any
    receiver gives the constant back. *)
Definition round_trips : Prop :=
  forall v r0, In v values ->
    exists b, marshal v = (Some b, nil_error) /\ unmarshal r0 (Some b) = (v, nil_error).

(** Text outside the wire set is refused with a non-nil error. *)
Definition rejects_unknown : Prop :=
  forall r0 text, ~ In (string_of_bytes text) wire ->
    exists e, snd (unmarshal r0 text) = Some e.

(** A refused decode leaves the receiver as it was. *)
Definition atomic_on_error : Prop :=
  forall r0 text, ~ In (string_of_bytes text) wire ->
    exists e, unmarshal r0 text = (r0, Some e).

(** Decoding succeeds on the wire set and nowhere else. *)
Definition accepts_exactly : Prop :=
  forall r0 text, snd (unmarshal r0 text) = nil_error <-> In (string_of_bytes text) wire.

(** The encoder sends the declared constants, in order, onto the wire
    strings, both lists being free of repetitions; and it produces nothing
    else. *)
Definition encodes_onto : Prop :=
  map marshal values = map (fun s => (Some s, nil_error)) wire
  /\ NoDup values /\ NoDup wire
  /\ (forall v s, fst (marshal v) = Some s -> In v values /\ In s wire).

(** A value that is not a declared constant encodes to a nil slice and an
    error. *)
Definition fails_out_of_range : Prop :=
  forall v, ~ In v values -> exists e, marshal v = (None, Some e).

End TextCodec.

(** ** The structs of the wire protocol *)

(** [type Rule struct] *)
Module Rule.
Record t : Type := mk {
  RuleType : RuleType.t;
  Policy : Policy.t;
  Identifier : string;
  CustomMessage : string
}.
End Rule.

(** [type Preflight struct]; Go's [int] is kept as [Z]. *)
Module Preflight.
Record t : Type := mk {
  ClientMode : ClientMode.t;
  BlockedPathRegex : string;
  AllowedPathRegex : string;
  BatchSize : Z;
  EnableBundles : bool;
  EnableTransitiveRules : bool;
  CleanSync : bool;
  FullSyncInterval : Z
}.
End Preflight.

(** [type PreflightPayload struct] *)
Module PreflightPayload.
Record t : Type := mk {
  OSBuild : string;
  SantaVersion : string;
  Hostname : string;
  OSVersion : string;
  CertificateRuleCount : Z;
  BinaryRuleCount : Z;
  ClientMode : ClientMode.t;
  SerialNumber : string;
  PrimaryUser : string
}.
End PreflightPayload.

(** [type Config struct]: [Preflight] is an embedded field. *)
Module Config.
Record t : Type := mk {
  MachineID : string;
  Preflight : Preflight.t;
  Rules : list Rule.t
}.
End Config.

(** ** [encoding/json] applied to [EventPayload]

    [EventPayload] is the one struct of the package with a field tagged
    [json:"-"].  The package has no JSON code of its own: the behaviour comes
    from the standard [encoding/json] package reading the struct tags.  The
    tags below are those of the source; the field selection, the member lookup
    and the per-kind decoding follow the documented behaviour of
    [encoding/json] on a parsed document.  What belongs to floating point and
    to the concrete syntax of documents is a variable of the section. *)
Module json.

(** A parsed JSON document. *)
Inductive value : Type :=
| Null
| Bool (b : bool)
| Number (literal : string)
| String (s : string)
| Array (elements : list value)
| Object (members : list (string * value))
| Raw (text : string).     (* an embedded, already encoded [RawMessage] *)

(** [type RawMessage []byte] *)
Definition RawMessage := bytes.

Inductive failure : Type :=
| UnsupportedValueError
| UnmarshalTypeError (member : string).

(** The name part of a struct tag: the text before the first comma. *)
Fixpoint parseTag (tag : string) : string :=
  match tag with
  | EmptyString => EmptyString
  | String.String c rest =>
      if Ascii.eqb c ","%char then EmptyString else String.String c (parseTag rest)
  end.

(** The member name of a field: none when the tag is ["-"], the name of the
    tag when it has one, the Go name of the field otherwise. *)
Definition memberName (goName tag : string) : option string :=
  if String.eqb tag "-" then None
  else if String.eqb (parseTag tag) "" then Some goName
  else Some (parseTag tag).

End json.

Section EventPayloadJSON.

Variable float64 : Type.
(** [!math.IsInf(f, 0) && !math.IsNaN(f)] *)
Variable isFinite : float64 -> bool.
(** The number literal the encoder writes for a finite value. *)
Variable formatFloat : float64 -> string.
(** [strconv.ParseFloat(literal, 64)], [None] on a range error. *)
Variable parseFloat : string -> option float64.
(** The case folding under which the decoder compares member names when no
    field has the exact name. *)
Variable foldName : string -> string.
(** The bytes of a value as they stand in the decoded input. *)
Variable rawText : json.value -> string.

(** [type EventPayload struct] *)
Record EventPayload : Type := mkEventPayload {
  FileSHA : string;
  UnixTime : float64;
  Content : json.RawMessage
}.

Inductive EventPayloadField : Type := fFileSHA | fUnixTime | fContent.

Definition goName (f : EventPayloadField) : string :=
  match f with
  | fFileSHA => "FileSHA"
  | fUnixTime => "UnixTime"
  | fContent => "Content"
  end.

(** The [json:"..."] struct tags of the source. *)
Definition jsonTag (f : EventPayloadField) : string :=
  match f with
  | fFileSHA => "file_sha256"
  | fUnixTime => "execution_time"
  | fContent => "-"
  end.

(** The fields the encoder and the decoder see, in declaration order, each
    with its member name. *)
Definition typeFields : list (string * EventPayloadField) :=
  flat_map
    (fun f => match json.memberName (goName f) (jsonTag f) with
              | Some n => [(n, f)]
              | None => []
              end)
    [fFileSHA; fUnixTime; fContent].

(** Encoding of one field by its Go type: a string, a [float64] (refused
    when not finite), a [RawMessage] (its own bytes, [null] when nil). *)
Definition encodeField (p : EventPayload) (f : EventPayloadField)
  : json.value + json.failure :=
  match f with
  | fFileSHA => inl (json.String (FileSHA p))
  | fUnixTime =>
      if isFinite (UnixTime p) then inl (json.Number (formatFloat (UnixTime p)))
      else inr json.UnsupportedValueError
  | fContent =>
      match Content p with
      | Some raw => inl (json.Raw raw)
      | None => inl json.Null
      end
  end.

Fixpoint encodeMembers (p : EventPayload) (fs : list (string * EventPayloadField))
  : list (string * json.value) + json.failure :=
  match fs with
  | [] => inl []
  | (n, f) :: rest =>
      match encodeField p f with
      | inr e => inr e
      | inl v =>
          match encodeMembers p rest with
          | inr e => inr e
          | inl ms => inl ((n, v) :: ms)
          end
      end
  end.

(** [json.Marshal(p)] *)
Definition Marshal (p : EventPayload) : json.value + json.failure :=
  match encodeMembers p typeFields with
  | inl ms => inl (json.Object ms)
  | inr e => inr e
  end.

(** The field a member of the input is stored into: the one with exactly
    that name, else the first one with that name up to case folding. *)
Definition findField (key : string) : option EventPayloadField :=
  match find (fun nf => String.eqb (fst nf) key) typeFields with
  | Some nf => Some (snd nf)
  | None =>
      match find (fun nf => String.eqb (foldName (fst nf)) (foldName key)) typeFields with
      | Some nf => Some (snd nf)
      | None => None
      end
  end.

(** Decoding of one value into one field.  A string or number field keeps
    its value on [null] and reports a type error on a value of another kind;
    a [RawMessage] takes the bytes of whatever value it is given. *)
Definition decodeField (p : EventPayload) (f : EventPayloadField) (key : string)
  (v : json.value) : EventPayload * option json.failure :=
  match f, v with
  | fContent, _ => (mkEventPayload (FileSHA p) (UnixTime p) (Some (rawText v)), None)
  | _, json.Null => (p, None)
  | fFileSHA, json.String s => (mkEventPayload s (UnixTime p) (Content p), None)
  | fUnixTime, json.Number lit =>
      match parseFloat lit with
      | Some x => (mkEventPayload (FileSHA p) x (Content p), None)
      | None => (p, Some (json.UnmarshalTypeError key))
      end
  | _, _ => (p, Some (json.UnmarshalTypeError key))
  end.

(** The members of an object are decoded in order; members that name no
    field are skipped; the first type error is kept and decoding goes on. *)
Fixpoint decodeMembers (p : EventPayload) (err : option json.failure)
  (ms : list (string * json.value)) : EventPayload * option json.failure :=
  match ms with
  | [] => (p, err)
  | (k, v) :: rest =>
      match findField k with
      | None => decodeMembers p err rest
      | Some f =>
          let (p', e) := decodeField p f k v in
          decodeMembers p' (match err with Some _ => err | None => e end) rest
      end
  end.

(** [json.Unmarshal(doc, &p)] on a syntactically valid document: the value
    of [p] after the call and the error. *)
Definition Unmarshal (p : EventPayload) (doc : json.value)
  : EventPayload * option json.failure :=
  match doc with
  | json.Null => (p, None)
  | json.Object ms => decodeMembers p None ms
  | _ => (p, Some (json.UnmarshalTypeError ""))
  end.

End EventPayloadJSON.

Arguments FileSHA {float64} _.
Arguments UnixTime {float64} _.
Arguments Content {float64} _.
(** ** The rule set of a machine and the precedence engine *)

Module RuleSet.

(** The key under which a rule is unique within a machine's rule set. *)
Definition sameKey (a b : Rule.t) : bool :=
  Z.eqb (Rule.RuleType a) (Rule.RuleType b)
  && String.eqb (Rule.Identifier a) (Rule.Identifier b).

Definition isRemove (r : Rule.t) : bool := Z.eqb (Rule.Policy r) Policy.Remove.

(** Modelled from the spec: the rule-store upsert of section 3 (no rule
    store is among the sources).  A rule with the key of the new one is
    dropped; a [Remove] rule deletes the tuple and is not stored, any other
    rule is appended. *)
Definition upsert (rules : list Rule.t) (r : Rule.t) : list Rule.t :=
  let others := filter (fun x => negb (sameKey x r)) rules in
  if isRemove r then others else others ++ [r].

(** Upserts applied in order. *)
Definition applyAll (rules : list Rule.t) (updates : list Rule.t) : list Rule.t :=
  fold_left upsert updates rules.

(** The effective set: rules with [Remove] policy are left out before
    precedence is applied. *)
Definition effective (rules : list Rule.t) : list Rule.t :=
  filter (fun r => negb (isRemove r)) rules.

(** No two rules of the list have the same key. *)
Fixpoint uniqueKeys (rules : list Rule.t) : bool :=
  match rules with
  | [] => true
  | r :: rest => negb (existsb (sameKey r) rest) && uniqueKeys rest
  end.

End RuleSet.

(** Modelled from the spec: the PolicyPrecedenceEngine of section 4.2 (the
    engine is not among the sources).  An execution event carries up to four
    identifiers; the tiers are tried from the most specific one; within a tier
    rules that disagree are reported as an inconsistency of the store, as the
    design notes ask. *)
Module PolicyPrecedenceEngine.

Record Event : Type := mkEvent {
  BinaryHash : option string;
  CertificateHash : option string;
  TeamIdentifier : option string;
  SigningIdentifier : option string
}.

(** The identifier of the event a rule of the given type is compared with. *)
Definition identifierFor (ev : Event) (rt : RuleType.t) : option string :=
  if Z.eqb rt RuleType.Binary then BinaryHash ev
  else if Z.eqb rt RuleType.Certificate then CertificateHash ev
  else if Z.eqb rt RuleType.TeamID then TeamIdentifier ev
  else if Z.eqb rt RuleType.SigningID then SigningIdentifier ev
  else None.

Definition matches (ev : Event) (r : Rule.t) : bool :=
  match identifierFor ev (Rule.RuleType r) with
  | Some id => String.eqb id (Rule.Identifier r)
  | None => false
  end.

(** The ranked tiers: Binary > SigningID > Certificate > TeamID. *)
Definition tiers : list RuleType.t :=
  [RuleType.Binary; RuleType.SigningID; RuleType.Certificate; RuleType.TeamID].

(** The immediate verdict of a policy: [AllowlistCompiler] allows. *)
Definition verdict (p : Policy.t) : Policy.t :=
  if Z.eqb p Policy.AllowlistCompiler then Policy.Allowlist else p.

(** The decision when no rule matches, from the client mode. *)
Definition fallback (mode : ClientMode.t) : Policy.t :=
  if Z.eqb mode ClientMode.Lockdown then Policy.Blocklist else Policy.Allowlist.

Inductive decision : Type :=
| Effective (p : Policy.t) (compiler : option string)
    (* the policy, and the identifier the transitive tracker must watch *)
| Inconsistent.

(** The decision of one tier on the rules that match the event: none when
    the tier has no rule. *)
Definition decideTier (transitive : bool) (rt : RuleType.t) (ms : list Rule.t)
  : option decision :=
  match filter (fun r => Z.eqb (Rule.RuleType r) rt) ms with
  | [] => None
  | r :: same =>
      if forallb (fun r' => Z.eqb (verdict (Rule.Policy r')) (verdict (Rule.Policy r))) same
      then Some (Effective (verdict (Rule.Policy r))
                   (if transitive && Z.eqb (Rule.Policy r) Policy.AllowlistCompiler
                    then Some (Rule.Identifier r) else None))
      else Some Inconsistent
  end.

Fixpoint firstTier (transitive : bool) (ts : list RuleType.t) (ms : list Rule.t)
  : option decision :=
  match ts with
  | [] => None
  | rt :: rest =>
      match decideTier transitive rt ms with
      | Some d => Some d
      | None => firstTier transitive rest ms
      end
  end.

(** The effective decision for an event: [Remove] rules are dropped, the
    rules matching the event are kept, the first tier with a rule decides,
    and the fallback of the client mode applies when no tier has one. *)
Definition Decide (pf : Preflight.t) (rules : list Rule.t) (ev : Event) : decision :=
  let ms := filter (matches ev) (RuleSet.effective rules) in
  match firstTier (Preflight.EnableTransitiveRules pf) tiers ms with
  | Some d => d
  | None => Effective (fallback (Preflight.ClientMode pf)) None
  end.

End PolicyPrecedenceEngine.

(** Modelled from the spec: the BatchCursorPager of section 4.4 (the pager is
    not among the sources).  A cursor is the index of the next unseen rule
    with the version of the rule set it was issued for. *)
Module BatchCursorPager.

Record SyncCursor : Type := mkCursor { Offset : nat; Version : Z }.

Record VersionedRules : Type := mkRules { Rules : list Rule.t; RulesVersion : Z }.

Definition defaultBatchSize : Z := 50.

(** The batch size in force: the configured one, the default when the
    configured one is not positive. *)
Definition batchSize (pf : Preflight.t) : nat :=
  if Z.leb (Preflight.BatchSize pf) 0 then Z.to_nat defaultBatchSize
  else Z.to_nat (Preflight.BatchSize pf).

Definition cursorZero (rs : VersionedRules) : SyncCursor :=
  mkCursor 0 (RulesVersion rs).

Inductive page : Type :=
| Page (batch : list Rule.t) (nextCursor : SyncCursor) (done : bool)
| CursorStale (restart : SyncCursor).

(** One call: the next [batchSize] rules from the cursor, the cursor after
    them, and whether the rule set is exhausted; a cursor of another version
    is stale and pagination restarts from zero. *)
Definition DownloadBatch (rs : VersionedRules) (pf : Preflight.t) (c : SyncCursor) : page :=
  if negb (Z.eqb (Version c) (RulesVersion rs)) then CursorStale (cursorZero rs)
  else
    let batch := firstn (batchSize pf) (skipn (Offset c) (Rules rs)) in
    let next := (Offset c + List.length batch)%nat in
    Page batch (mkCursor next (Version c)) (Nat.leb (List.length (Rules rs)) next).



(** The number of batches of [b] rules that cover [n] rules. *)
Definition ceilDiv (n b : nat) : nat := ((n + b - 1) / b)%nat.

End BatchCursorPager.

(** Modelled from the spec: the SyncSessionManager of section 4.1 (the
    session manager is not among the sources).  Each of the four calls checks
    the phase of the session itself.  [Committed] and [Aborted] are terminal:
    [Aborted] is entered from the states before them only, and a committed
    session is changed by no call.  What the spec leaves to configuration or
    to other components is a variable of the section. *)
Module SyncSessionManager.

Inductive State : Type :=
| Started | Preflighted | Downloading | EventsUploaded | Committed | Aborted.

Inductive ErrorKind : Type :=
| InvalidPayload | UnknownEnumValue | ProtocolViolation
| CursorStale | SessionConflict | StoreUnavailable.

Inductive Call : Type :=
| CallPreflight | CallDownloadBatch | CallUploadEvents | CallPostflight.

(** The place of a state in the order
    Started -> Preflighted -> Downloading -> EventsUploaded -> Committed. *)
Definition rank (s : State) : option nat :=
  match s with
  | Started => Some 0%nat
  | Preflighted => Some 1%nat
  | Downloading => Some 2%nat
  | EventsUploaded => Some 3%nat
  | Committed => Some 4%nat
  | Aborted => None
  end.

(** The phase a call completes. *)
Definition target (c : Call) : State :=
  match c with
  | CallPreflight => Preflighted
  | CallDownloadBatch => Downloading
  | CallUploadEvents => EventsUploaded
  | CallPostflight => Committed
  end.

(** The calls that may be repeated within their phase: a batch download
    (one call per batch, and retries) and the idempotent postflight. *)
Definition repeatable (c : Call) : bool :=
  match c with
  | CallDownloadBatch | CallPostflight => true
  | _ => false
  end.

(** A call is in order when it completes the phase that follows the state of
    the session, or repeats the phase the session is in when it may. *)
Definition inOrder (s : State) (c : Call) : bool :=
  match rank s, rank (target c) with
  | Some i, Some j => Nat.eqb j (S i) || (repeatable c && Nat.eqb j i)
  | _, _ => false
  end.

Record Session : Type := mkSession {
  MachineID : string;
  Phase : State;
  Config : Preflight.t;                                  (* fixed at preflight *)
  Cursor : BatchCursorPager.SyncCursor;                  (* owned by the session *)
  CommittedCursor : option BatchCursorPager.SyncCursor   (* durable sync state *)
}.

(** The states no call leaves: a committed session stays committed, an
    aborted one aborted. *)
Definition terminal (s : State) : bool :=
  match s with
  | Committed | Aborted => true
  | _ => false
  end.

(** The outcome of a call that is out of order.  The call fails with
    [ProtocolViolation]; a session under way moves to [Aborted], with its
    cursor and its committed state as they were; a session in a terminal
    state is left as it is. *)
Definition violation {A : Type} (s : Session) : Session * (A + ErrorKind) :=
  (if terminal (Phase s) then s
   else mkSession (MachineID s) Aborted (Config s) (Cursor s) (CommittedCursor s),
   inr ProtocolViolation).

Section Calls.

(** The settings of a machine before the clean-sync decision. *)
Variable fleetDefault : Preflight.t.
(** The check of the payload fields. *)
Variable wellFormed : PreflightPayload.t -> bool.
(** The rule-count difference above which a clean sync is forced. *)
Variable tolerance : Z.
(** The uploaded events and the per-event verdict of the EventIngestor. *)
Variable event : Type.
Variable ingest : string -> list event -> list bool.

Definition Preflight (rs : BatchCursorPager.VersionedRules)
  (payload : PreflightPayload.t) (s : Session) : Session * (Preflight.t + ErrorKind) :=
  match Phase s with
  | Started =>
      if String.eqb (MachineID s) "" || negb (wellFormed payload)
      then (mkSession (MachineID s) Aborted (Config s) (Cursor s) (CommittedCursor s),
            inr InvalidPayload)
      else
        let reported :=
          PreflightPayload.CertificateRuleCount payload
          + PreflightPayload.BinaryRuleCount payload in
        let clean :=
          Z.ltb tolerance (Z.abs (reported - Z.of_nat (List.length (BatchCursorPager.Rules rs)))) in
        let pf :=
          Preflight.mk (Preflight.ClientMode fleetDefault)
            (Preflight.BlockedPathRegex fleetDefault)
            (Preflight.AllowedPathRegex fleetDefault)
            (Preflight.BatchSize fleetDefault)
            (Preflight.EnableBundles fleetDefault)
            (Preflight.EnableTransitiveRules fleetDefault)
            clean
            (Preflight.FullSyncInterval fleetDefault) in
        (mkSession (MachineID s) Preflighted pf (BatchCursorPager.cursorZero rs)
           (CommittedCursor s), inl pf)
  | _ => violation s
  end.

Definition DownloadBatch (rs : BatchCursorPager.VersionedRules)
  (cursor : BatchCursorPager.SyncCursor) (s : Session)
  : Session * (list Rule.t * BatchCursorPager.SyncCursor * bool + ErrorKind) :=
  match Phase s with
  | Preflighted | Downloading =>
      match BatchCursorPager.DownloadBatch rs (Config s) cursor with
      | BatchCursorPager.Page batch next done =>
          (mkSession (MachineID s) Downloading (Config s) next (CommittedCursor s),
           inl (batch, next, done))
      | BatchCursorPager.CursorStale restart =>
          (mkSession (MachineID s) Downloading (Config s) restart (CommittedCursor s),
           inr CursorStale)
      end
  | _ => violation s
  end.

Definition UploadEvents (events : list event) (s : Session)
  : Session * (list bool + ErrorKind) :=
  match Phase s with
  | Downloading =>
      (mkSession (MachineID s) EventsUploaded (Config s) (Cursor s) (CommittedCursor s),
       inl (ingest (MachineID s) events))
  | _ => violation s
  end.

Definition Postflight (s : Session) : Session * (unit + ErrorKind) :=
  match Phase s with
  | EventsUploaded =>
      (mkSession (MachineID s) Committed (Config s) (Cursor s) (Some (Cursor s)), inl tt)
  | Committed => (s, inl tt)
  | _ => violation s
  end.

(** A request to the session manager with its arguments. *)
Inductive Request : Type :=
| ReqPreflight (rs : BatchCursorPager.VersionedRules) (payload : PreflightPayload.t)
| ReqDownloadBatch (rs : BatchCursorPager.VersionedRules)
    (cursor : BatchCursorPager.SyncCursor)
| ReqUploadEvents (events : list event)
| ReqPostflight.

Definition callOf (r : Request) : Call :=
  match r with
  | ReqPreflight _ _ => CallPreflight
  | ReqDownloadBatch _ _ => CallDownloadBatch
  | ReqUploadEvents _ => CallUploadEvents
  | ReqPostflight => CallPostflight
  end.

(** The session after a request and the error of the call, if any. *)
Definition serve (r : Request) (s : Session) : Session * option ErrorKind :=
  let failure {A : Type} (x : A + ErrorKind) : option ErrorKind :=
    match x with inl _ => None | inr e => Some e end in
  match r with
  | ReqPreflight rs payload =>
      let (s', x) := Preflight rs payload s in (s', failure x)
  | ReqDownloadBatch rs cursor =>
      let (s', x) := DownloadBatch rs cursor s in (s', failure x)
  | ReqUploadEvents events =>
      let (s', x) := UploadEvents events s in (s', failure x)
  | ReqPostflight =>
      let (s', x) := Postflight s in (s', failure x)
  end.

End Calls.

(** A fresh session of a machine. *)
Definition fresh (machine : string) (pf : Preflight.t) : Session :=
  mkSession machine Started pf (BatchCursorPager.mkCursor 0 0) None.

End SyncSessionManager.

(** ** Several decodes into one receiver *)

Section Receiver.

Variable unmarshal : Z -> bytes -> Z * error.

(** The receiver after [UnmarshalText] has been called on it with each text
    in turn, the errors being dropped by the caller. *)
Definition decodeAll (r0 : Z) (texts : list bytes) : Z :=
  fold_left (fun r text => fst (unmarshal r text)) texts r0.

(** Whether a text decodes without error. *)
Definition decodes (text : bytes) : bool :=
  match snd (unmarshal 0 text) with
  | None => true
  | Some _ => false
  end.

End Receiver.

(** The characters of the wire strings: [A] to [Z] and the underscore. *)
Definition isWireChar (c : ascii) : bool :=
  let n := nat_of_ascii c in
  (Nat.leb 65 n && Nat.leb n 90) || Ascii.eqb c "_"%char.

(** ** The struct tags of the package *)
Module tags.

(** A field of a struct with the values of its [json] and [toml] tag keys
    ([None] when the tag has no such key). *)
Record field : Type := mk { name : string; jsonTag : option string; tomlTag : option string }.

Definition Config : list field :=
  [ mk "MachineID" None (Some "machine_id,omitempty");
    mk "Preflight" None None;
    mk "Rules" None (Some "rules") ].

Definition Rule : list field :=
  [ mk "RuleType" (Some "rule_type") (Some "rule_type");
    mk "Policy" (Some "policy") (Some "policy");
    mk "Identifier" (Some "identifier") (Some "identifier");
    mk "CustomMessage" (Some "custom_msg,omitempty") (Some "custom_msg,omitempty") ].

Definition Preflight : list field :=
  [ mk "ClientMode" (Some "client_mode") (Some "client_mode");
    mk "BlockedPathRegex" (Some "blocked_path_regex") (Some "blocked_path_regex");
    mk "AllowedPathRegex" (Some "allowed_path_regex") (Some "allowed_path_regex");
    mk "BatchSize" (Some "batch_size") (Some "batch_size");
    mk "EnableBundles" (Some "enable_bundles") (Some "enable_bundles");
    mk "EnableTransitiveRules" (Some "enable_transitive_rules")
      (Some "enable_transitive_rules");
    mk "CleanSync" (Some "clean_sync") (Some "clean_sync");
    mk "FullSyncInterval" (Some "full_sync_interval") (Some "full_sync_interval") ].

Definition PreflightPayload : list field :=
  [ mk "OSBuild" (Some "os_build") None;
    mk "SantaVersion" (Some "santa_version") None;
    mk "Hostname" (Some "hostname") None;
    mk "OSVersion" (Some "os_version") None;
    mk "CertificateRuleCount" (Some "certificate_rule_count") None;
    mk "BinaryRuleCount" (Some "binary_rule_count") None;
    mk "ClientMode" (Some "client_mode") None;
    mk "SerialNumber" (Some "serial_num") None;
    mk "PrimaryUser" (Some "primary_user") None ].

Definition EventPayload : list field :=
  [ mk "FileSHA" (Some "file_sha256") None;
    mk "UnixTime" (Some "execution_time") None;
    mk "Content" (Some "-") None ].

(** The value [Tag.Get(key)] gives: the empty string when the key is absent. *)
Definition get (tag : option string) : string :=
  match tag with
  | Some s => s
  | None => ""
  end.

(** The JSON member names of the fields of a struct that have one, for a
    struct without embedded fields (the members of an embedded struct are
    promoted by the library; that is not modelled here). *)
Definition jsonNames (fields : list field) : list string :=
  flat_map
    (fun f => match json.memberName (name f) (get (jsonTag f)) with
              | Some n => [n]
              | None => []
              end)
    fields.

End tags.
(** * Theorems *)

(** ** The text codecs of [santa.go] *)

Ltac split_eqb :=
  repeat match goal with
    | |- context [String.eqb ?a ?b] => destruct (String.eqb_spec a b)
    | |- context [Z.eqb ?a ?b] => destruct (Z.eqb_spec a b)
    end.

Ltac codec_unfold :=
  unfold RuleType.UnmarshalText, RuleType.MarshalText, RuleType.values, RuleType.wire,
    Policy.UnmarshalText, Policy.MarshalText, Policy.values, Policy.wire,
    ClientMode.UnmarshalText, ClientMode.MarshalText, ClientMode.values, ClientMode.wire,
    bytes_of_string, nil_error.

(** Each declared constant is tried in turn. *)
Ltac prove_round_trips :=
  let v := fresh "v" in
  let r0 := fresh "r" in
  let Hv := fresh "Hv" in
  intros v r0 Hv;
  repeat (destruct Hv as [<- | Hv]; [eexists; split; reflexivity | ]);
  destruct Hv.

(** Each comparison of the switch is decided; the branches left either
    return nil on a listed string or fall to the default case. *)
Ltac prove_accepts_exactly :=
  let H := fresh "H" in
  intros ? ?; codec_unfold; simpl In;
  split_eqb; simpl; split; intro H; try reflexivity; try discriminate;
  intuition congruence.

Ltac prove_atomic_on_error :=
  let Hn := fresh "Hn" in
  intros ? ? Hn; codec_unfold; revert Hn; simpl In;
  split_eqb; intro Hn; try (exfalso; apply Hn; intuition congruence);
  eexists; reflexivity.

Ltac prove_fails_out_of_range :=
  let Hn := fresh "Hn" in
  intros ? Hn; codec_unfold; revert Hn; simpl In;
  split_eqb; intro Hn; try (exfalso; apply Hn; intuition congruence);
  eexists; reflexivity.

Ltac prove_encodes_onto :=
  let H := fresh "H" in
  split; [reflexivity | ];
  split; [repeat constructor; simpl; intuition discriminate | ];
  split; [repeat constructor; simpl; intuition discriminate | ];
  intros ? ?; codec_unfold; simpl In;
  split_eqb; simpl; intro H; try discriminate; inversion H; subst;
  intuition congruence.

Lemma RuleType_round_trips :
  round_trips RuleType.MarshalText RuleType.UnmarshalText RuleType.values.
Proof. prove_round_trips. Qed.

Lemma RuleType_accepts_exactly : accepts_exactly RuleType.UnmarshalText RuleType.wire.
Proof. prove_accepts_exactly. Qed.

Lemma RuleType_atomic_on_error : atomic_on_error RuleType.UnmarshalText RuleType.wire.
Proof. prove_atomic_on_error. Qed.

Lemma RuleType_fails_out_of_range : fails_out_of_range RuleType.MarshalText RuleType.values.
Proof. prove_fails_out_of_range. Qed.

Lemma RuleType_encodes_onto :
  encodes_onto RuleType.MarshalText RuleType.values RuleType.wire.
Proof. prove_encodes_onto. Qed.

Lemma Policy_round_trips :
  round_trips Policy.MarshalText Policy.UnmarshalText Policy.values.
Proof. prove_round_trips. Qed.

Lemma Policy_accepts_exactly : accepts_exactly Policy.UnmarshalText Policy.wire.
Proof. prove_accepts_exactly. Qed.

Lemma Policy_atomic_on_error : atomic_on_error Policy.UnmarshalText Policy.wire.
Proof. prove_atomic_on_error. Qed.

Lemma Policy_fails_out_of_range : fails_out_of_range Policy.MarshalText Policy.values.
Proof. prove_fails_out_of_range. Qed.

Lemma Policy_encodes_onto : encodes_onto Policy.MarshalText Policy.values Policy.wire.
Proof. prove_encodes_onto. Qed.

Lemma ClientMode_round_trips :
  round_trips ClientMode.MarshalText ClientMode.UnmarshalText ClientMode.values.
Proof. prove_round_trips. Qed.

Lemma ClientMode_accepts_exactly : accepts_exactly ClientMode.UnmarshalText ClientMode.wire.
Proof. prove_accepts_exactly. Qed.

Lemma ClientMode_atomic_on_error : atomic_on_error ClientMode.UnmarshalText ClientMode.wire.
Proof. prove_atomic_on_error. Qed.

Lemma ClientMode_fails_out_of_range :
  fails_out_of_range ClientMode.MarshalText ClientMode.values.
Proof. prove_fails_out_of_range. Qed.

Lemma ClientMode_encodes_onto :
  encodes_onto ClientMode.MarshalText ClientMode.values ClientMode.wire.
Proof. prove_encodes_onto. Qed.

(** A refused decode returns an error in particular. *)
Lemma atomic_rejects unmarshal wire :
  atomic_on_error unmarshal wire -> rejects_unknown unmarshal wire.
Proof.
  intros H r0 text Hn. destruct (H r0 text Hn) as [e He].
  exists e. rewrite He. reflexivity.
Qed.

(** C1. For every declared constant of [RuleType], [Policy] and [ClientMode],
    [MarshalText] succeeds, and [UnmarshalText] applied to the bytes it
    returned succeeds and stores the constant back in the receiver, whatever
    the receiver held before. *)
Theorem marshal_then_unmarshal_is_identity :
  (forall v r0, In v RuleType.values ->
     exists b, RuleType.MarshalText v = (Some b, nil_error)
               /\ RuleType.UnmarshalText r0 (Some b) = (v, nil_error))
  /\ (forall v p0, In v Policy.values ->
        exists b, Policy.MarshalText v = (Some b, nil_error)
                  /\ Policy.UnmarshalText p0 (Some b) = (v, nil_error))
  /\ (forall v c0, In v ClientMode.values ->
        exists b, ClientMode.MarshalText v = (Some b, nil_error)
                  /\ ClientMode.UnmarshalText c0 (Some b) = (v, nil_error)).
Proof.
  split; [exact RuleType_round_trips | ].
  split; [exact Policy_round_trips | exact ClientMode_round_trips].
Qed.

Lemma marshal_then_unmarshal_is_identity_witness :
  In Policy.AllowlistCompiler Policy.values
  /\ exists b, Policy.MarshalText Policy.AllowlistCompiler = (Some b, nil_error)
               /\ Policy.UnmarshalText Policy.Blocklist (Some b)
                  = (Policy.AllowlistCompiler, nil_error).
Proof.
  assert (H : In Policy.AllowlistCompiler Policy.values) by (simpl; tauto).
  split; [exact H | ].
  exact (proj1 (proj2 marshal_then_unmarshal_is_identity)
           Policy.AllowlistCompiler Policy.Blocklist H).
Defined.

(** C2. For every text outside the wire set of the enum, [UnmarshalText] of
    [RuleType], [Policy] and [ClientMode] returns a non-nil error. *)
Theorem unmarshal_unknown_text_is_an_error :
  (forall r0 text, ~ In (string_of_bytes text) RuleType.wire ->
     exists e, snd (RuleType.UnmarshalText r0 text) = Some e)
  /\ (forall p0 text, ~ In (string_of_bytes text) Policy.wire ->
        exists e, snd (Policy.UnmarshalText p0 text) = Some e)
  /\ (forall c0 text, ~ In (string_of_bytes text) ClientMode.wire ->
        exists e, snd (ClientMode.UnmarshalText c0 text) = Some e).
Proof.
  split; [exact (atomic_rejects _ _ RuleType_atomic_on_error) | ].
  split; [exact (atomic_rejects _ _ Policy_atomic_on_error) | ].
  exact (atomic_rejects _ _ ClientMode_atomic_on_error).
Qed.

Lemma unmarshal_unknown_text_is_an_error_witness :
  ~ In (string_of_bytes (Some "binary")) RuleType.wire
  /\ exists e, snd (RuleType.UnmarshalText RuleType.Binary (Some "binary")) = Some e.
Proof.
  assert (H : ~ In (string_of_bytes (Some "binary")) RuleType.wire)
    by (simpl; intuition discriminate).
  split; [exact H | ].
  exact (proj1 unmarshal_unknown_text_is_an_error RuleType.Binary (Some "binary") H).
Defined.

(** C3. The wire encodings are the listed ones.  [MarshalText] sends the
    declared constants of each enum, in declaration order, onto the listed
    strings; constants and strings are pairwise distinct, so the map is a
    bijection; it returns no other text; and [UnmarshalText] succeeds on the
    listed strings and on no other text. *)
Theorem wire_encoding_is_exact :
  RuleType.wire = ["BINARY"; "CERTIFICATE"; "TEAMID"; "SIGNINGID"]
  /\ Policy.wire = ["BLOCKLIST"; "ALLOWLIST"; "ALLOWLIST_COMPILER"; "REMOVE"]
  /\ ClientMode.wire = ["MONITOR"; "LOCKDOWN"]
  /\ (map RuleType.MarshalText RuleType.values
        = map (fun s => (Some s, nil_error)) RuleType.wire
      /\ NoDup RuleType.values /\ NoDup RuleType.wire
      /\ (forall v s, fst (RuleType.MarshalText v) = Some s ->
            In v RuleType.values /\ In s RuleType.wire))
  /\ (map Policy.MarshalText Policy.values
        = map (fun s => (Some s, nil_error)) Policy.wire
      /\ NoDup Policy.values /\ NoDup Policy.wire
      /\ (forall v s, fst (Policy.MarshalText v) = Some s ->
            In v Policy.values /\ In s Policy.wire))
  /\ (map ClientMode.MarshalText ClientMode.values
        = map (fun s => (Some s, nil_error)) ClientMode.wire
      /\ NoDup ClientMode.values /\ NoDup ClientMode.wire
      /\ (forall v s, fst (ClientMode.MarshalText v) = Some s ->
            In v ClientMode.values /\ In s ClientMode.wire))
  /\ (forall r0 text, snd (RuleType.UnmarshalText r0 text) = nil_error
                      <-> In (string_of_bytes text) RuleType.wire)
  /\ (forall p0 text, snd (Policy.UnmarshalText p0 text) = nil_error
                      <-> In (string_of_bytes text) Policy.wire)
  /\ (forall c0 text, snd (ClientMode.UnmarshalText c0 text) = nil_error
                      <-> In (string_of_bytes text) ClientMode.wire).
Proof.
  repeat (split; [reflexivity | ]).
  split; [exact RuleType_encodes_onto | ].
  split; [exact Policy_encodes_onto | ].
  split; [exact ClientMode_encodes_onto | ].
  split; [exact RuleType_accepts_exactly | ].
  split; [exact Policy_accepts_exactly | exact ClientMode_accepts_exactly].
Qed.

Lemma wire_encoding_is_exact_witness :
  fst (ClientMode.MarshalText ClientMode.Lockdown) = Some "LOCKDOWN"
  /\ In ClientMode.Lockdown ClientMode.values /\ In "LOCKDOWN" ClientMode.wire.
Proof.
  assert (H : fst (ClientMode.MarshalText ClientMode.Lockdown) = Some "LOCKDOWN")
    by reflexivity.
  split; [exact H | ].
  exact (proj2 (proj2 (proj2
           (proj1 (proj2 (proj2 (proj2 (proj2 (proj2 wire_encoding_is_exact))))))))
           ClientMode.Lockdown "LOCKDOWN" H).
Defined.

(** C8. [UnmarshalText] is atomic on error: for every text outside the wire
    set the call returns a non-nil error and the receiver holds the value it
    held before the call. *)
Theorem unmarshal_error_keeps_receiver :
  (forall r0 text, ~ In (string_of_bytes text) RuleType.wire ->
     exists e, RuleType.UnmarshalText r0 text = (r0, Some e))
  /\ (forall p0 text, ~ In (string_of_bytes text) Policy.wire ->
        exists e, Policy.UnmarshalText p0 text = (p0, Some e))
  /\ (forall c0 text, ~ In (string_of_bytes text) ClientMode.wire ->
        exists e, ClientMode.UnmarshalText c0 text = (c0, Some e)).
Proof.
  split; [exact RuleType_atomic_on_error | ].
  split; [exact Policy_atomic_on_error | exact ClientMode_atomic_on_error].
Qed.

Lemma unmarshal_error_keeps_receiver_witness :
  ~ In (string_of_bytes (Some "Lockdown")) ClientMode.wire
  /\ exists e, ClientMode.UnmarshalText ClientMode.Lockdown (Some "Lockdown")
               = (ClientMode.Lockdown, Some e).
Proof.
  assert (H : ~ In (string_of_bytes (Some "Lockdown")) ClientMode.wire)
    by (simpl; intuition discriminate).
  split; [exact H | ].
  exact (proj2 (proj2 unmarshal_error_keeps_receiver)
           ClientMode.Lockdown (Some "Lockdown") H).
Defined.

(** C9. [MarshalText] is defined on every integer, and on every value outside
    the declared constants ([RuleType] and [Policy] outside 0..3, [ClientMode]
    outside 0..1) it returns a nil slice and a non-nil error. *)
Theorem marshal_out_of_range_fails :
  (forall r : RuleType.t, ~ (0 <= r <= 3) ->
     exists e, RuleType.MarshalText r = (None, Some e))
  /\ (forall p : Policy.t, ~ (0 <= p <= 3) ->
        exists e, Policy.MarshalText p = (None, Some e))
  /\ (forall c : ClientMode.t, ~ (0 <= c <= 1) ->
        exists e, ClientMode.MarshalText c = (None, Some e)).
Proof.
  split; [ | split].
  - intros r Hr. apply RuleType_fails_out_of_range.
    unfold RuleType.values, RuleType.Binary, RuleType.Certificate,
      RuleType.TeamID, RuleType.SigningID. simpl. lia.
  - intros p Hp. apply Policy_fails_out_of_range.
    unfold Policy.values, Policy.Blocklist, Policy.Allowlist,
      Policy.AllowlistCompiler, Policy.Remove. simpl. lia.
  - intros c Hc. apply ClientMode_fails_out_of_range.
    unfold ClientMode.values, ClientMode.Monitor, ClientMode.Lockdown. simpl. lia.
Qed.

Lemma marshal_out_of_range_fails_witness :
  ~ (0 <= 4 <= 3) /\ exists e, RuleType.MarshalText 4 = (None, Some e).
Proof.
  assert (H : ~ (0 <= 4 <= 3)) by lia.
  split; [exact H | ].
  exact (proj1 marshal_out_of_range_fails 4 H).
Defined.

(** ** [EventPayload] under [encoding/json] *)

Section EventPayloadJSONFacts.

Variable float64 : Type.
Variable isFinite : float64 -> bool.
Variable formatFloat : float64 -> string.
Variable parseFloat : string -> option float64.
Variable foldName : string -> string.
Variable rawText : json.value -> string.

(** The struct tags leave two fields to the codec. *)
Lemma typeFields_eq :
  typeFields = [("file_sha256", fFileSHA); ("execution_time", fUnixTime)].
Proof. reflexivity. Qed.

Lemma findField_not_Content key : findField foldName key <> Some fContent.
Proof.
  unfold findField. rewrite typeFields_eq. simpl.
  repeat match goal with
         | |- context [if ?b then _ else _] => destruct b
         end; discriminate.
Qed.

Lemma decodeField_Content (p : EventPayload float64) f key v :
  f <> fContent ->
  Content (fst (decodeField float64 parseFloat rawText p f key v)) = Content p.
Proof.
  intro Hf. destruct f; [ | | congruence]; destruct v; simpl; try reflexivity.
  destruct (parseFloat literal); reflexivity.
Qed.

Lemma decodeMembers_Content ms : forall (p : EventPayload float64) err,
  Content (fst (decodeMembers float64 parseFloat foldName rawText p err ms)) = Content p.
Proof.
  induction ms as [ | [k v] ms IH]; intros p err; simpl; [reflexivity | ].
  destruct (findField foldName k) as [f | ] eqn:Hf; [ | apply IH].
  assert (Hc : f <> fContent) by (intros ->; exact (findField_not_Content k Hf)).
  pose proof (decodeField_Content p f k v Hc) as Hd.
  destruct (decodeField float64 parseFloat rawText p f k v) as [p' e].
  rewrite IH. exact Hd.
Qed.

(** C10. The [Content] field of [EventPayload] has no part in its JSON form.
    Encoding a payload gives the object with the two members [file_sha256]
    and [execution_time], in that order, and nothing else (or the error of a
    non-finite [execution_time]); the result is the same whatever [Content]
    holds.  Decoding any document leaves [Content] as it was, so a EventPayload float64
    decoded from its zero value has a nil [Content], whatever the members of
    the document. *)
Theorem EventPayload_json_leaves_Content_out :
  (forall p : EventPayload float64,
     Marshal float64 isFinite formatFloat p =
       if isFinite (UnixTime p)
       then inl (json.Object [("file_sha256", json.String (FileSHA p));
                              ("execution_time", json.Number (formatFloat (UnixTime p)))])
       else inr json.UnsupportedValueError)
  /\ (forall sha time c c',
        Marshal float64 isFinite formatFloat (mkEventPayload float64 sha time c)
        = Marshal float64 isFinite formatFloat (mkEventPayload float64 sha time c'))
  /\ (forall (p : EventPayload float64) doc,
        Content (fst (Unmarshal float64 parseFloat foldName rawText p doc)) = Content p)
  /\ (forall sha time doc,
        Content (fst (Unmarshal float64 parseFloat foldName rawText
                        (mkEventPayload float64 sha time None) doc)) = None).
Proof.
  assert (Hm : forall p : EventPayload float64,
             Marshal float64 isFinite formatFloat p =
               if isFinite (UnixTime p)
               then inl (json.Object [("file_sha256", json.String (FileSHA p));
                                      ("execution_time",
                                        json.Number (formatFloat (UnixTime p)))])
               else inr json.UnsupportedValueError).
  { intro p. unfold Marshal. rewrite typeFields_eq. simpl.
    destruct (isFinite (UnixTime p)); reflexivity. }
  assert (Hu : forall (p : EventPayload float64) doc,
             Content (fst (Unmarshal float64 parseFloat foldName rawText p doc))
             = Content p).
  { intros p doc. destruct doc; simpl; try reflexivity.
    apply decodeMembers_Content. }
  split; [exact Hm | ].
  split; [intros sha time c c'; rewrite !Hm; reflexivity | ].
  split; [exact Hu | ].
  intros sha time doc. rewrite Hu. reflexivity.
Qed.

End EventPayloadJSONFacts.

(** ** The precedence engine *)

Section PrecedenceFacts.

Import PolicyPrecedenceEngine.

Lemma filter_filter_andb {A : Type} (f g : A -> bool) (l : list A) :
  filter f (filter g l) = filter (fun x => g x && f x) l.
Proof.
  induction l as [ | a l IH]; simpl; [reflexivity | ].
  destruct (g a); simpl; [destruct (f a) | ]; rewrite IH; reflexivity.
Qed.

Lemma sameKey_sym a b : RuleSet.sameKey a b = RuleSet.sameKey b a.
Proof.
  unfold RuleSet.sameKey. rewrite Z.eqb_sym. f_equal. apply String.eqb_sym.
Qed.

(** In a list with unique keys, a selection whose members all have the key
    of a selected rule [b] of the list is [b] alone. *)
Lemma filter_unique_key (P : Rule.t -> bool) (b : Rule.t) (l : list Rule.t) :
  RuleSet.uniqueKeys l = true ->
  In b l -> P b = true ->
  (forall x, In x l -> P x = true -> RuleSet.sameKey b x = true) ->
  filter P l = [b].
Proof.
  induction l as [ | a l IH]; simpl; intros Hu Hin Hb Hkey; [destruct Hin | ].
  apply andb_true_iff in Hu. destruct Hu as [Hfresh Hu].
  apply negb_true_iff in Hfresh.
  destruct Hin as [-> | Hin].
  - rewrite Hb. f_equal.
    destruct (filter P l) as [ | x rest] eqn:Hf; [reflexivity | exfalso].
    assert (Hx : In x (filter P l)) by (rewrite Hf; left; reflexivity).
    apply filter_In in Hx. destruct Hx as [Hxl Hpx].
    assert (He : existsb (RuleSet.sameKey b) l = true).
    { apply existsb_exists. exists x. split; [exact Hxl | ]. apply Hkey; auto. }
    congruence.
  - destruct (P a) eqn:Hpa.
    + exfalso.
      assert (He : existsb (RuleSet.sameKey a) l = true).
      { apply existsb_exists. exists b. split; [exact Hin | ].
        rewrite sameKey_sym. apply Hkey; auto. }
      congruence.
    + apply IH; auto.
Qed.

(** A decision taken by a tier is the verdict of a rule it was given. *)
Lemma decideTier_source transitive rt ms p c :
  decideTier transitive rt ms = Some (Effective p c) ->
  exists r, In r ms /\ p = verdict (Rule.Policy r).
Proof.
  unfold decideTier.
  destruct (filter (fun r => Z.eqb (Rule.RuleType r) rt) ms) as [ | r same] eqn:Hf;
    [discriminate | ].
  destruct (forallb _ same); intro H; inversion H; subst.
  exists r. split; [ | reflexivity].
  assert (Hr : In r (filter (fun r => Z.eqb (Rule.RuleType r) rt) ms))
    by (rewrite Hf; left; reflexivity).
  apply filter_In in Hr. tauto.
Qed.

Lemma firstTier_source transitive ts ms p c :
  firstTier transitive ts ms = Some (Effective p c) ->
  exists r, In r ms /\ p = verdict (Rule.Policy r).
Proof.
  induction ts as [ | rt ts IH]; simpl; [discriminate | ].
  destruct (decideTier transitive rt ms) as [d | ] eqn:Hd; [ | exact IH].
  intro H. inversion H; subst. eapply decideTier_source; eassumption.
Qed.

Lemma effective_idempotent rules :
  RuleSet.effective (RuleSet.effective rules) = RuleSet.effective rules.
Proof.
  unfold RuleSet.effective. rewrite filter_filter_andb.
  apply filter_ext. intro r. destruct (negb (RuleSet.isRemove r)); reflexivity.
Qed.

Lemma effective_app l1 l2 :
  RuleSet.effective (l1 ++ l2) = (RuleSet.effective l1 ++ RuleSet.effective l2)%list.
Proof. apply filter_app. Qed.

Lemma upsert_drops_key rules r x :
  In x (RuleSet.upsert rules r) -> RuleSet.isRemove r = true ->
  RuleSet.sameKey x r = false.
Proof.
  unfold RuleSet.upsert. intros Hin Hr. rewrite Hr in Hin.
  apply filter_In in Hin. destruct Hin as [_ Hin].
  apply negb_true_iff in Hin. exact Hin.
Qed.

(** *** The uniqueness invariant of the rule set is kept by [upsert] *)

Lemma existsb_filter_weaken (P Q : Rule.t -> bool) (l : list Rule.t) :
  existsb P (filter Q l) = true -> existsb P l = true.
Proof.
  intro H. apply existsb_exists in H. destruct H as [x [Hx Hp]].
  apply filter_In in Hx. apply existsb_exists. exists x. tauto.
Qed.

Lemma uniqueKeys_filter (Q : Rule.t -> bool) (l : list Rule.t) :
  RuleSet.uniqueKeys l = true -> RuleSet.uniqueKeys (filter Q l) = true.
Proof.
  induction l as [ | a l IH]; simpl; [reflexivity | ]. intro H.
  apply andb_true_iff in H. destruct H as [Hfresh Hu].
  destruct (Q a); [ | exact (IH Hu)].
  simpl. apply andb_true_iff. split; [ | exact (IH Hu)].
  apply negb_true_iff. apply negb_true_iff in Hfresh.
  destruct (existsb (RuleSet.sameKey a) (filter Q l)) eqn:He; [ | reflexivity].
  apply existsb_filter_weaken in He. congruence.
Qed.

Lemma uniqueKeys_snoc (l : list Rule.t) (r : Rule.t) :
  RuleSet.uniqueKeys l = true ->
  (forall x, In x l -> RuleSet.sameKey x r = false) ->
  RuleSet.uniqueKeys (l ++ [r]) = true.
Proof.
  induction l as [ | a l IH]; simpl; [reflexivity | ]. intros H Hr.
  apply andb_true_iff in H. destruct H as [Hfresh Hu].
  apply andb_true_iff. split; [ | apply IH; auto].
  rewrite existsb_app. simpl. apply negb_true_iff in Hfresh.
  rewrite Hfresh, (Hr a) by (left; reflexivity). reflexivity.
Qed.

Lemma upsert_uniqueKeys rules r :
  RuleSet.uniqueKeys rules = true -> RuleSet.uniqueKeys (RuleSet.upsert rules r) = true.
Proof.
  intro Hu. unfold RuleSet.upsert.
  destruct (RuleSet.isRemove r); [apply uniqueKeys_filter; exact Hu | ].
  apply uniqueKeys_snoc; [apply uniqueKeys_filter; exact Hu | ].
  intros x Hx. apply filter_In in Hx. destruct Hx as [_ Hx].
  apply negb_true_iff in Hx. exact Hx.
Qed.

Lemma applyAll_uniqueKeys updates : forall rules,
  RuleSet.uniqueKeys rules = true ->
  RuleSet.uniqueKeys (RuleSet.applyAll rules updates) = true.
Proof.
  unfold RuleSet.applyAll.
  induction updates as [ | u updates IH]; simpl; intros rules Hu; [exact Hu | ].
  apply IH. apply upsert_uniqueKeys. exact Hu.
Qed.

(** A rule set built by upserts holds no [Remove] rule. *)
Lemma upsert_no_Remove rules r :
  RuleSet.effective rules = rules ->
  RuleSet.effective (RuleSet.upsert rules r) = RuleSet.upsert rules r.
Proof.
  intro He. unfold RuleSet.upsert.
  assert (Hf : RuleSet.effective (filter (fun x => negb (RuleSet.sameKey x r)) rules)
               = filter (fun x => negb (RuleSet.sameKey x r)) rules).
  { rewrite <- He at 2. unfold RuleSet.effective.
    rewrite !filter_filter_andb. apply filter_ext. intro x. apply andb_comm. }
  destruct (RuleSet.isRemove r) eqn:Hr; [exact Hf | ].
  rewrite effective_app, Hf. unfold RuleSet.effective at 1. simpl.
  rewrite Hr. reflexivity.
Qed.

(** C4. When the event carries binary hash [H] and team identifier [T], and
    the rule set (with unique keys among its active rules, the invariant of
    the data model) holds a Binary rule with Allowlist policy for [H] and a
    TeamID rule with Blocklist policy for [T], the effective decision is
    Allowlist: the Binary tier is consulted before the TeamID tier. *)
Theorem binary_allow_outranks_team_block :
  forall pf rules ev H T msgB msgT,
    BinaryHash ev = Some H ->
    TeamIdentifier ev = Some T ->
    In (Rule.mk RuleType.Binary Policy.Allowlist H msgB) rules ->
    In (Rule.mk RuleType.TeamID Policy.Blocklist T msgT) rules ->
    RuleSet.uniqueKeys (RuleSet.effective rules) = true ->
    Decide pf rules ev = Effective Policy.Allowlist None.
Proof.
  intros pf rules ev H T msgB msgT HH HT Hb _ Hu.
  set (b := Rule.mk RuleType.Binary Policy.Allowlist H msgB) in *.
  unfold Decide, tiers. cbn [firstTier]. unfold decideTier at 1.
  rewrite filter_filter_andb.
  rewrite (filter_unique_key _ b (RuleSet.effective rules) Hu).
  - cbn [forallb]. rewrite andb_false_r. reflexivity.
  - apply filter_In. split; [exact Hb | reflexivity].
  - unfold matches, identifierFor. cbn. rewrite HH, String.eqb_refl. reflexivity.
  - intros x _ Hx. apply andb_true_iff in Hx. destruct Hx as [Hm Ht].
    apply Z.eqb_eq in Ht. unfold matches, identifierFor in Hm.
    rewrite Ht in Hm. cbn in Hm. rewrite HH in Hm.
    unfold RuleSet.sameKey. cbn. rewrite Ht, Hm. reflexivity.
Qed.

Lemma binary_allow_outranks_team_block_witness :
  let ev := mkEvent (Some "h1") None (Some "EQHXZ8M8AV") None in
  let rules := [Rule.mk RuleType.TeamID Policy.Blocklist "EQHXZ8M8AV" "";
                Rule.mk RuleType.Binary Policy.Allowlist "h1" ""] in
  let pf := Preflight.mk ClientMode.Lockdown "" "" 50 false false false 600 in
  Decide pf rules ev = Effective Policy.Allowlist None.
Proof.
  intros ev rules pf.
  apply (binary_allow_outranks_team_block pf rules ev "h1" "EQHXZ8M8AV" "" "").
  - reflexivity.
  - reflexivity.
  - simpl. right. left. reflexivity.
  - simpl. left. reflexivity.
  - vm_compute. reflexivity.
Defined.

(** The decision depends on the active rules only. *)
Lemma Decide_effective pf rules ev :
  Decide pf rules ev = Decide pf (RuleSet.effective rules) ev.
Proof. unfold Decide. rewrite effective_idempotent. reflexivity. Qed.

(** C5. Rules with [Remove] policy take no part in the decision: the
    decision on a rule set is the decision on its active rules, it does not
    change when a [Remove] rule is inserted anywhere in the set, and it is
    never [Remove].  Upserting [Certificate:Allowlist] and then
    [Certificate:Remove] for a certificate [C] leaves no rule for [C] in any
    store; from the empty store the rule set is empty again and the decision
    for every event is the fallback of the client mode. *)
Theorem remove_rules_never_decide :
  (forall pf rules ev, Decide pf rules ev = Decide pf (RuleSet.effective rules) ev)
  /\ (forall pf l1 r l2 ev,
        Rule.Policy r = Policy.Remove ->
        Decide pf (l1 ++ r :: l2) ev = Decide pf (l1 ++ l2) ev)
  /\ (forall pf rules ev c, Decide pf rules ev <> Effective Policy.Remove c)
  /\ (forall store C msgA msgR r,
        In r (RuleSet.applyAll store
                [Rule.mk RuleType.Certificate Policy.Allowlist C msgA;
                 Rule.mk RuleType.Certificate Policy.Remove C msgR]) ->
        ~ (Rule.RuleType r = RuleType.Certificate /\ Rule.Identifier r = C))
  /\ (forall pf C msgA msgR ev,
        RuleSet.applyAll []
          [Rule.mk RuleType.Certificate Policy.Allowlist C msgA;
           Rule.mk RuleType.Certificate Policy.Remove C msgR] = []
        /\ Decide pf
             (RuleSet.applyAll []
                [Rule.mk RuleType.Certificate Policy.Allowlist C msgA;
                 Rule.mk RuleType.Certificate Policy.Remove C msgR]) ev
           = Effective (fallback (Preflight.ClientMode pf)) None).
Proof.
  split; [exact Decide_effective | ].
  split.
  { intros pf l1 r l2 ev Hr.
    rewrite Decide_effective, (Decide_effective pf (l1 ++ l2)).
    rewrite !effective_app. unfold RuleSet.effective at 2. cbn [filter].
    unfold RuleSet.isRemove at 1. rewrite Hr. reflexivity. }
  split.
  { intros pf rules ev c Heq. unfold Decide in Heq.
    destruct (firstTier (Preflight.EnableTransitiveRules pf) tiers
                (filter (matches ev) (RuleSet.effective rules))) as [d | ] eqn:Hd.
    - subst d. apply firstTier_source in Hd. destruct Hd as [r [Hin Hv]].
      apply filter_In in Hin. destruct Hin as [Hin _].
      apply filter_In in Hin. destruct Hin as [_ Hin].
      apply negb_true_iff in Hin. unfold RuleSet.isRemove in Hin.
      apply Z.eqb_neq in Hin. unfold verdict in Hv.
      destruct (Z.eqb_spec (Rule.Policy r) Policy.AllowlistCompiler);
        [discriminate | congruence].
    - inversion Heq as [Hf]. unfold fallback in Hf.
      destruct (Z.eqb (Preflight.ClientMode pf) ClientMode.Lockdown); discriminate. }
  split.
  { intros store C msgA msgR r Hin [Ht Hi]. unfold RuleSet.applyAll in Hin.
    cbn [fold_left] in Hin.
    apply upsert_drops_key in Hin; [ | reflexivity].
    unfold RuleSet.sameKey in Hin. cbn in Hin.
    rewrite Ht, Hi, String.eqb_refl in Hin. discriminate. }
  intros pf C msgA msgR ev.
  assert (He : RuleSet.applyAll []
                 [Rule.mk RuleType.Certificate Policy.Allowlist C msgA;
                  Rule.mk RuleType.Certificate Policy.Remove C msgR] = []).
  { unfold RuleSet.applyAll, RuleSet.upsert, RuleSet.sameKey. cbn.
    rewrite String.eqb_refl. reflexivity. }
  rewrite He. split; reflexivity.
Qed.

Lemma remove_rules_never_decide_witness :
  let pf := Preflight.mk ClientMode.Lockdown "" "" 50 false false false 600 in
  let ev := mkEvent None (Some "c1") None None in
  let allow := Rule.mk RuleType.Certificate Policy.Allowlist "c1" "" in
  let remove := Rule.mk RuleType.Certificate Policy.Remove "c1" "" in
  Decide pf ([allow] ++ remove :: []) ev = Decide pf ([allow] ++ []) ev.
Proof.
  intros pf ev allow remove.
  apply (proj1 (proj2 remove_rules_never_decide) pf [allow] remove [] ev).
  reflexivity.
Defined.

End PrecedenceFacts.

(** ** The batch pager *)

Section PagerFacts.

Import BatchCursorPager.
Local Open Scope nat_scope.









(** [ceilDiv] is the ceiling of the quotient. *)
Lemma ceilDiv_is_ceiling n b :
  1 <= b -> n <= b * ceilDiv n b /\ b * ceilDiv n b < n + b.
Proof.
  intro Hb. unfold ceilDiv.
  pose proof (Nat.div_mod_eq (n + b - 1) b) as Hd.
  pose proof (Nat.mod_upper_bound (n + b - 1) b) as Hm.
  lia.
Qed.




End PagerFacts.

(** ** The session manager *)

Section SessionFacts.

Import SyncSessionManager.

Variable fleetDefault : Preflight.t.
Variable wellFormed : PreflightPayload.t -> bool.
Variable tolerance : Z.
Variable event : Type.
Variable ingest : string -> list event -> list bool.

(** A call is refused as out of order exactly when [inOrder] says so. *)
Lemma in_order_call_is_no_violation (req : Request event) (s : Session) :
  inOrder (Phase s) (callOf event req) = true ->
  snd (serve fleetDefault wellFormed tolerance event ingest req s)
  <> Some ProtocolViolation.
Proof.
  destruct s as [m ph cfg cur com].
  destruct req as [rs payload | rs cursor | events | ]; destruct ph;
    cbn; try discriminate; intros _.
  - unfold Preflight. cbn.
    destruct (String.eqb m "" || negb (wellFormed payload)); cbn; discriminate.
  - unfold DownloadBatch. cbn.
    destruct (BatchCursorPager.DownloadBatch rs cfg cursor); cbn; discriminate.
  - unfold DownloadBatch. cbn.
    destruct (BatchCursorPager.DownloadBatch rs cfg cursor); cbn; discriminate.
Qed.

(** C7. On a fresh session [DownloadBatch] fails with [ProtocolViolation]
    and the session is [Aborted] afterwards.  In general every call that is
    out of the phase order
    Started -> Preflighted -> Downloading -> EventsUploaded -> Committed
    fails with [ProtocolViolation], and the session is in the [Aborted]
    state afterwards, with the sync state committed before untouched; the
    one state that is not left is the terminal [Committed], in which the
    call fails all the same and the session stays as it is. *)
Theorem out_of_order_call_is_a_protocol_violation :
  (forall machine pf rs cursor,
     snd (DownloadBatch rs cursor (fresh machine pf)) = inr ProtocolViolation
     /\ Phase (fst (DownloadBatch rs cursor (fresh machine pf))) = Aborted)
  /\ (forall (req : Request event) (s : Session),
        inOrder (Phase s) (callOf event req) = false ->
        snd (serve fleetDefault wellFormed tolerance event ingest req s)
        = Some ProtocolViolation
        /\ CommittedCursor
             (fst (serve fleetDefault wellFormed tolerance event ingest req s))
           = CommittedCursor s
        /\ (Phase s <> Committed ->
            Phase (fst (serve fleetDefault wellFormed tolerance event ingest req s))
            = Aborted)
        /\ (Phase s = Committed ->
            fst (serve fleetDefault wellFormed tolerance event ingest req s) = s)).
Proof.
  split; [intros; split; reflexivity | ].
  intros req s. destruct s as [m ph cfg cur com].
  destruct req as [rs payload | rs cursor | events | ]; destruct ph;
    cbn; intro H; try discriminate H;
    (split; [reflexivity | ]); (split; [reflexivity | ]);
    (split; intro Hp; [try reflexivity; exfalso; apply Hp; reflexivity
                      | try reflexivity; discriminate Hp]).
Qed.

End SessionFacts.

Lemma out_of_order_call_is_a_protocol_violation_witness :
  let pf := Preflight.mk ClientMode.Monitor "" "" 50 false false false 600 in
  let s := SyncSessionManager.fresh "machine-1" pf in
  let served :=
    SyncSessionManager.serve pf (fun _ => true) 0 unit (fun _ evs => map (fun _ => true) evs)
      (SyncSessionManager.ReqPostflight unit) s in
  SyncSessionManager.inOrder (SyncSessionManager.Phase s)
    (SyncSessionManager.callOf unit (SyncSessionManager.ReqPostflight unit)) = false
  /\ SyncSessionManager.Phase s <> SyncSessionManager.Committed
  /\ snd served = Some SyncSessionManager.ProtocolViolation
  /\ SyncSessionManager.Phase (fst served) = SyncSessionManager.Aborted.
Proof.
  intros pf s served.
  assert (H : SyncSessionManager.inOrder (SyncSessionManager.Phase s)
                (SyncSessionManager.callOf unit (SyncSessionManager.ReqPostflight unit))
              = false) by reflexivity.
  assert (Hp : SyncSessionManager.Phase s <> SyncSessionManager.Committed)
    by (cbn; discriminate).
  split; [exact H | ]. split; [exact Hp | ].
  destruct (proj2 (out_of_order_call_is_a_protocol_violation pf (fun _ => true) 0 unit
                     (fun _ evs => map (fun _ => true) evs))
              (SyncSessionManager.ReqPostflight unit) s H) as [Herr [_ [Hab _]]].
  split; [exact Herr | exact (Hab Hp)].
Defined.

(** * Further properties of the text codecs *)

(** ** Decoding, then encoding *)

(** Only the comparisons of the decoder are decided, so that the encoder is
    applied to the constant each accepting branch stores. *)
Ltac decode_cases :=
  unfold RuleType.UnmarshalText, Policy.UnmarshalText, ClientMode.UnmarshalText, nil_error;
  repeat match goal with
    | |- context [String.eqb ?a ?b] => destruct (String.eqb_spec a b)
    end;
  cbn [fst snd].

Ltac text_is_literal :=
  match goal with
  | e : string_of_bytes ?text = _ |- _ =>
      destruct text; cbn [string_of_bytes] in e; [subst | discriminate e]
  end.

Lemma RuleType_decode_encode r0 text :
  snd (RuleType.UnmarshalText r0 text) = nil_error ->
  RuleType.MarshalText (fst (RuleType.UnmarshalText r0 text)) = (text, nil_error).
Proof. decode_cases; intro H; try discriminate H; text_is_literal; reflexivity. Qed.

Lemma Policy_decode_encode p0 text :
  snd (Policy.UnmarshalText p0 text) = nil_error ->
  Policy.MarshalText (fst (Policy.UnmarshalText p0 text)) = (text, nil_error).
Proof. decode_cases; intro H; try discriminate H; text_is_literal; reflexivity. Qed.

Lemma ClientMode_decode_encode c0 text :
  snd (ClientMode.UnmarshalText c0 text) = nil_error ->
  ClientMode.MarshalText (fst (ClientMode.UnmarshalText c0 text)) = (text, nil_error).
Proof. decode_cases; intro H; try discriminate H; text_is_literal; reflexivity. Qed.

(** X1. When [UnmarshalText] accepts a text, [MarshalText] of the value it
    stored returns that very text, with a nil error: decoding then encoding
    is the identity on accepted texts, for the three enums. *)
Theorem unmarshal_then_marshal_is_identity :
  (forall r0 text,
     snd (RuleType.UnmarshalText r0 text) = nil_error ->
     RuleType.MarshalText (fst (RuleType.UnmarshalText r0 text)) = (text, nil_error))
  /\ (forall p0 text,
        snd (Policy.UnmarshalText p0 text) = nil_error ->
        Policy.MarshalText (fst (Policy.UnmarshalText p0 text)) = (text, nil_error))
  /\ (forall c0 text,
        snd (ClientMode.UnmarshalText c0 text) = nil_error ->
        ClientMode.MarshalText (fst (ClientMode.UnmarshalText c0 text)) = (text, nil_error)).
Proof.
  split; [exact RuleType_decode_encode | ].
  split; [exact Policy_decode_encode | exact ClientMode_decode_encode].
Qed.

Lemma unmarshal_then_marshal_is_identity_witness :
  snd (Policy.UnmarshalText 17 (Some "ALLOWLIST_COMPILER")) = nil_error
  /\ Policy.MarshalText (fst (Policy.UnmarshalText 17 (Some "ALLOWLIST_COMPILER")))
     = (Some "ALLOWLIST_COMPILER", nil_error).
Proof.
  assert (H : snd (Policy.UnmarshalText 17 (Some "ALLOWLIST_COMPILER")) = nil_error)
    by reflexivity.
  split; [exact H | ].
  exact (proj1 (proj2 unmarshal_then_marshal_is_identity) 17 (Some "ALLOWLIST_COMPILER") H).
Defined.

(** ** What a successful decode stores *)

Lemma RuleType_success_overwrites r0 r1 text :
  snd (RuleType.UnmarshalText r0 text) = nil_error ->
  In (fst (RuleType.UnmarshalText r0 text)) RuleType.values
  /\ RuleType.UnmarshalText r1 text = RuleType.UnmarshalText r0 text.
Proof.
  decode_cases; intro H; try discriminate H; (split; [simpl; tauto | reflexivity]).
Qed.

Lemma Policy_success_overwrites p0 p1 text :
  snd (Policy.UnmarshalText p0 text) = nil_error ->
  In (fst (Policy.UnmarshalText p0 text)) Policy.values
  /\ Policy.UnmarshalText p1 text = Policy.UnmarshalText p0 text.
Proof.
  decode_cases; intro H; try discriminate H; (split; [simpl; tauto | reflexivity]).
Qed.

Lemma ClientMode_success_overwrites c0 c1 text :
  snd (ClientMode.UnmarshalText c0 text) = nil_error ->
  In (fst (ClientMode.UnmarshalText c0 text)) ClientMode.values
  /\ ClientMode.UnmarshalText c1 text = ClientMode.UnmarshalText c0 text.
Proof.
  decode_cases; intro H; try discriminate H; (split; [simpl; tauto | reflexivity]).
Qed.

(** X2. A decode that returns a nil error stores a declared constant, and the
    outcome is the same for every receiver: nothing of the value the receiver
    held before, valid or not, survives a successful decode. *)
Theorem successful_unmarshal_stores_a_constant :
  (forall r0 r1 text,
     snd (RuleType.UnmarshalText r0 text) = nil_error ->
     In (fst (RuleType.UnmarshalText r0 text)) RuleType.values
     /\ RuleType.UnmarshalText r1 text = RuleType.UnmarshalText r0 text)
  /\ (forall p0 p1 text,
        snd (Policy.UnmarshalText p0 text) = nil_error ->
        In (fst (Policy.UnmarshalText p0 text)) Policy.values
        /\ Policy.UnmarshalText p1 text = Policy.UnmarshalText p0 text)
  /\ (forall c0 c1 text,
        snd (ClientMode.UnmarshalText c0 text) = nil_error ->
        In (fst (ClientMode.UnmarshalText c0 text)) ClientMode.values
        /\ ClientMode.UnmarshalText c1 text = ClientMode.UnmarshalText c0 text).
Proof.
  split; [exact RuleType_success_overwrites | ].
  split; [exact Policy_success_overwrites | exact ClientMode_success_overwrites].
Qed.

Lemma successful_unmarshal_stores_a_constant_witness :
  snd (RuleType.UnmarshalText 99 (Some "SIGNINGID")) = nil_error
  /\ In (fst (RuleType.UnmarshalText 99 (Some "SIGNINGID"))) RuleType.values
  /\ RuleType.UnmarshalText (-1) (Some "SIGNINGID")
     = RuleType.UnmarshalText 99 (Some "SIGNINGID").
Proof.
  assert (H : snd (RuleType.UnmarshalText 99 (Some "SIGNINGID")) = nil_error)
    by reflexivity.
  split; [exact H | ].
  exact (proj1 successful_unmarshal_stores_a_constant 99 (-1) (Some "SIGNINGID") H).
Defined.

(** ** The two results of [MarshalText] *)

Section MarshalResults.

Variable marshal : Z -> bytes * error.
Variable unmarshal : Z -> bytes -> Z * error.
Variable values : list Z.
Variable wire : list string.

Hypothesis Hround : round_trips marshal unmarshal values.
Hypothesis Honto : encodes_onto marshal values wire.
Hypothesis Hrange : fails_out_of_range marshal values.

(** Bytes and error are never both nil and never both non-nil. *)
Lemma marshal_bytes_or_error (v : Z) :
  (In v values /\ exists s, marshal v = (Some s, nil_error) /\ In s wire)
  \/ (~ In v values /\ exists e, marshal v = (None, Some e)).
Proof.
  destruct (in_dec Z.eq_dec v values) as [Hin | Hout].
  - left. split; [exact Hin | ].
    destruct (Hround v 0 Hin) as [b [Hb _]]. exists b. split; [exact Hb | ].
    destruct Honto as [_ [_ [_ Himage]]].
    apply (Himage v b). rewrite Hb. reflexivity.
  - right. split; [exact Hout | ]. exact (Hrange v Hout).
Qed.

End MarshalResults.

(** X3. For every integer, [MarshalText] returns either a wire string with a
    nil error, and does so exactly on the declared constants, or a nil slice
    with a non-nil error: the caller never gets bytes together with an error,
    nor neither. *)
Theorem marshal_returns_bytes_or_error :
  (forall r : RuleType.t,
     (In r RuleType.values
      /\ exists s, RuleType.MarshalText r = (Some s, nil_error) /\ In s RuleType.wire)
     \/ (~ In r RuleType.values /\ exists e, RuleType.MarshalText r = (None, Some e)))
  /\ (forall p : Policy.t,
        (In p Policy.values
         /\ exists s, Policy.MarshalText p = (Some s, nil_error) /\ In s Policy.wire)
        \/ (~ In p Policy.values /\ exists e, Policy.MarshalText p = (None, Some e)))
  /\ (forall c : ClientMode.t,
        (In c ClientMode.values
         /\ exists s, ClientMode.MarshalText c = (Some s, nil_error) /\ In s ClientMode.wire)
        \/ (~ In c ClientMode.values
            /\ exists e, ClientMode.MarshalText c = (None, Some e))).
Proof.
  split; [ | split]; intro v.
  - exact (marshal_bytes_or_error _ _ _ _ RuleType_round_trips RuleType_encodes_onto
             RuleType_fails_out_of_range v).
  - exact (marshal_bytes_or_error _ _ _ _ Policy_round_trips Policy_encodes_onto
             Policy_fails_out_of_range v).
  - exact (marshal_bytes_or_error _ _ _ _ ClientMode_round_trips ClientMode_encodes_onto
             ClientMode_fails_out_of_range v).
Qed.

(** ** The three wire sets *)

(** X4. No text is accepted by the decoders of two different enums: the wire
    sets of [RuleType], [Policy] and [ClientMode] are pairwise disjoint. *)
Theorem no_text_decodes_as_two_enums :
  forall text,
    decodes RuleType.UnmarshalText text && decodes Policy.UnmarshalText text = false
    /\ decodes RuleType.UnmarshalText text && decodes ClientMode.UnmarshalText text = false
    /\ decodes Policy.UnmarshalText text && decodes ClientMode.UnmarshalText text = false.
Proof.
  intro text. unfold decodes. decode_cases.
  all: repeat split; try reflexivity; congruence.
Qed.

(** X6. A text that a decoder accepts is made of the capital letters [A] to
    [Z] and the underscore only, and is 6 to 18 bytes long: the decoders fold
    no case and trim no space. *)
Theorem accepted_text_is_upper_case :
  (forall r0 text,
     snd (RuleType.UnmarshalText r0 text) = nil_error ->
     forallb isWireChar (list_ascii_of_string (string_of_bytes text)) = true
     /\ (6 <= String.length (string_of_bytes text) <= 18)%nat)
  /\ (forall p0 text,
        snd (Policy.UnmarshalText p0 text) = nil_error ->
        forallb isWireChar (list_ascii_of_string (string_of_bytes text)) = true
        /\ (6 <= String.length (string_of_bytes text) <= 18)%nat)
  /\ (forall c0 text,
        snd (ClientMode.UnmarshalText c0 text) = nil_error ->
        forallb isWireChar (list_ascii_of_string (string_of_bytes text)) = true
        /\ (6 <= String.length (string_of_bytes text) <= 18)%nat).
Proof.
  split; [ | split]; intros r0 text; decode_cases; intro H; try discriminate H;
    match goal with e : string_of_bytes text = _ |- _ => rewrite e end;
    (split; [reflexivity | cbn; lia]).
Qed.

Lemma accepted_text_is_upper_case_witness :
  snd (ClientMode.UnmarshalText 0 (Some "LOCKDOWN")) = nil_error
  /\ forallb isWireChar (list_ascii_of_string (string_of_bytes (Some "LOCKDOWN"))) = true
  /\ (6 <= String.length (string_of_bytes (Some "LOCKDOWN")) <= 18)%nat.
Proof.
  assert (H : snd (ClientMode.UnmarshalText 0 (Some "LOCKDOWN")) = nil_error)
    by reflexivity.
  split; [exact H | ].
  exact (proj2 (proj2 accepted_text_is_upper_case) 0 (Some "LOCKDOWN") H).
Defined.

(** ** The errors *)

Ltac encode_cases :=
  unfold RuleType.MarshalText, Policy.MarshalText, ClientMode.MarshalText, nil_error;
  repeat match goal with
    | |- context [Z.eqb ?a ?b] => destruct (Z.eqb_spec a b)
    end;
  cbn [fst snd].

(** X5. Every error of the six functions names what was refused: the error of
    a decode is built from the format of its enum and the text as given, the
    error of an encode from the format of its enum and the integer; and the
    six formats differ, so the error tells which codec refused. *)
Theorem errors_carry_the_refused_input :
  (forall r0 text,
     snd (RuleType.UnmarshalText r0 text) = nil_error
     \/ snd (RuleType.UnmarshalText r0 text)
        = Some (errors.Errorf "unknown rule_type value %q"
                  (errors.OpString (string_of_bytes text))))
  /\ (forall p0 text,
        snd (Policy.UnmarshalText p0 text) = nil_error
        \/ snd (Policy.UnmarshalText p0 text)
           = Some (errors.Errorf "unknown policy value %q"
                     (errors.OpString (string_of_bytes text))))
  /\ (forall c0 text,
        snd (ClientMode.UnmarshalText c0 text) = nil_error
        \/ snd (ClientMode.UnmarshalText c0 text)
           = Some (errors.Errorf "unknown client_mode value %q"
                     (errors.OpString (string_of_bytes text))))
  /\ (forall r : RuleType.t,
        snd (RuleType.MarshalText r) = nil_error
        \/ snd (RuleType.MarshalText r)
           = Some (errors.Errorf "unknown rule_type %d" (errors.OpInt r)))
  /\ (forall p : Policy.t,
        snd (Policy.MarshalText p) = nil_error
        \/ snd (Policy.MarshalText p)
           = Some (errors.Errorf "unknown policy %d" (errors.OpInt p)))
  /\ (forall c : ClientMode.t,
        snd (ClientMode.MarshalText c) = nil_error
        \/ snd (ClientMode.MarshalText c)
           = Some (errors.Errorf "unknown client_mode %d" (errors.OpInt c)))
  /\ NoDup ["unknown rule_type value %q"; "unknown policy value %q";
            "unknown client_mode value %q"; "unknown rule_type %d";
            "unknown policy %d"; "unknown client_mode %d"].
Proof.
  repeat split.
  1-3: intros r0 text; decode_cases; auto.
  1-3: intro v; encode_cases; auto.
  repeat constructor; simpl; intuition discriminate.
Qed.

(** ** Several decodes into one receiver *)

Lemma RuleType_failure_keeps r0 text :
  snd (RuleType.UnmarshalText r0 text) <> nil_error ->
  fst (RuleType.UnmarshalText r0 text) = r0.
Proof. decode_cases; intro H; try reflexivity; exfalso; apply H; reflexivity. Qed.

Lemma Policy_failure_keeps p0 text :
  snd (Policy.UnmarshalText p0 text) <> nil_error ->
  fst (Policy.UnmarshalText p0 text) = p0.
Proof. decode_cases; intro H; try reflexivity; exfalso; apply H; reflexivity. Qed.

Lemma ClientMode_failure_keeps c0 text :
  snd (ClientMode.UnmarshalText c0 text) <> nil_error ->
  fst (ClientMode.UnmarshalText c0 text) = c0.
Proof. decode_cases; intro H; try reflexivity; exfalso; apply H; reflexivity. Qed.

Section LastAcceptedWins.

Variable unmarshal : Z -> bytes -> Z * error.

Hypothesis Hsuccess : forall r0 r1 text,
  snd (unmarshal r0 text) = nil_error -> unmarshal r1 text = unmarshal r0 text.
Hypothesis Hfailure : forall r0 text,
  snd (unmarshal r0 text) <> nil_error -> fst (unmarshal r0 text) = r0.

Lemma decodeAll_snoc r0 texts text :
  decodeAll unmarshal r0 (texts ++ [text])
  = fst (unmarshal (decodeAll unmarshal r0 texts) text).
Proof. unfold decodeAll. rewrite fold_left_app. reflexivity. Qed.

(** The receiver ends with the value of the last text that decodes, and
    with its first value when none does. *)
Lemma decodeAll_last_accepted texts : forall r0,
  decodeAll unmarshal r0 texts
  = match find (decodes unmarshal) (rev texts) with
    | Some text => fst (unmarshal 0 text)
    | None => r0
    end.
Proof.
  induction texts as [ | text texts IH] using rev_ind; intro r0; [reflexivity | ].
  rewrite decodeAll_snoc, rev_unit. cbn [find]. unfold decodes at 1.
  destruct (snd (unmarshal 0 text)) as [e | ] eqn:He.
  - rewrite <- IH. apply Hfailure. intro Hok.
    rewrite (Hsuccess _ 0 text Hok) in He. unfold nil_error in Hok.
    congruence.
  - rewrite (Hsuccess 0 (decodeAll unmarshal r0 texts) text He). reflexivity.
Qed.

End LastAcceptedWins.

(** X7. When [UnmarshalText] is called on one receiver with a sequence of
    texts, the receiver ends with the constant of the last text of the
    sequence that decodes, whatever was refused after it, and with the value
    it had at first when no text decodes. *)
Theorem last_accepted_text_wins :
  forall texts,
    (forall r0,
       decodeAll RuleType.UnmarshalText r0 texts
       = match find (decodes RuleType.UnmarshalText) (rev texts) with
         | Some text => fst (RuleType.UnmarshalText 0 text)
         | None => r0
         end)
    /\ (forall p0,
          decodeAll Policy.UnmarshalText p0 texts
          = match find (decodes Policy.UnmarshalText) (rev texts) with
            | Some text => fst (Policy.UnmarshalText 0 text)
            | None => p0
            end)
    /\ (forall c0,
          decodeAll ClientMode.UnmarshalText c0 texts
          = match find (decodes ClientMode.UnmarshalText) (rev texts) with
            | Some text => fst (ClientMode.UnmarshalText 0 text)
            | None => c0
            end).
Proof.
  intro texts. split; [ | split].
  - apply decodeAll_last_accepted.
    + intros r0 r1 text H. apply (RuleType_success_overwrites r0 r1 text H).
    + exact RuleType_failure_keeps.
  - apply decodeAll_last_accepted.
    + intros r0 r1 text H. apply (Policy_success_overwrites r0 r1 text H).
    + exact Policy_failure_keeps.
  - apply decodeAll_last_accepted.
    + intros r0 r1 text H. apply (ClientMode_success_overwrites r0 r1 text H).
    + exact ClientMode_failure_keeps.
Qed.

(** ** Empty input *)

(** X8. A nil slice and an empty slice are decoded alike, and both are
    refused: the call returns an error and the receiver keeps its value. *)
Theorem empty_text_is_refused :
  (forall r0,
     RuleType.UnmarshalText r0 None = RuleType.UnmarshalText r0 (Some "")
     /\ exists e, RuleType.UnmarshalText r0 None = (r0, Some e))
  /\ (forall p0,
        Policy.UnmarshalText p0 None = Policy.UnmarshalText p0 (Some "")
        /\ exists e, Policy.UnmarshalText p0 None = (p0, Some e))
  /\ (forall c0,
        ClientMode.UnmarshalText c0 None = ClientMode.UnmarshalText c0 (Some "")
        /\ exists e, ClientMode.UnmarshalText c0 None = (c0, Some e)).
Proof.
  repeat split; try (eexists; reflexivity).
Qed.

(** ** The struct tags *)

(** X9. In [Rule], [Preflight] and [PreflightPayload] every field has a JSON
    member name and no two fields of a struct share one; in [EventPayload]
    the fields with a member name are the first two; and for every field of
    [Rule] and [Preflight] the [toml] tag is the [json] tag, so both
    representations use the same keys. *)
Theorem struct_tags_name_distinct_members :
  (List.length (tags.jsonNames tags.Rule) = List.length tags.Rule
   /\ NoDup (tags.jsonNames tags.Rule))
  /\ (List.length (tags.jsonNames tags.Preflight) = List.length tags.Preflight
      /\ NoDup (tags.jsonNames tags.Preflight))
  /\ (List.length (tags.jsonNames tags.PreflightPayload)
      = List.length tags.PreflightPayload
      /\ NoDup (tags.jsonNames tags.PreflightPayload))
  /\ tags.jsonNames tags.EventPayload = ["file_sha256"; "execution_time"]
  /\ Forall (fun f => tags.tomlTag f = tags.jsonTag f) (tags.Rule ++ tags.Preflight).
Proof.
  repeat split; try reflexivity;
    repeat constructor; cbn; intuition discriminate.
Qed.
